(** * my_service.py: an MQTT status agent

    A shallow embedding of [my_service.py].  The script builds a paho MQTT
    client, registers a last-will message, publishes a status message on
    connect, a numbered update on every pass of a timer loop, and a farewell
    message on SIGINT.

    The calls the script makes on the outside world ([logging], [print],
    [signal], the paho client, [time.sleep]) are recorded, in program order,
    as a list of [event]s.  An event records that the call was made, with
    its arguments; the library is taken to return from it.  Methods of
    [MqttClient] are computations in a small monad that threads the object
    ([self]), appends to the event list and stops at the first
    [sys.exit]. *)

From Stdlib Require Import ZArith List String Ascii Bool Lia.
From Stdlib Require Import Numbers.DecimalString.
From Stdlib Require Import Numbers.DecimalPos Numbers.DecimalZ FinFun.
Import ListNotations.

Local Open Scope string_scope.
Local Open Scope Z_scope.

(** ** Python primitives used by the script *)

Module Py.

(** [str(n)] for an [int], as an f-string renders it. *)
Definition str_int (n : Z) : string :=
  NilZero.string_of_int (Z.to_int n).

(** [s.endswith(suffix)] *)
Definition endswith (s suffix : string) : bool :=
  (String.length suffix <=? String.length s)%nat &&
  String.eqb
    (substring (String.length s - String.length suffix)
               (String.length suffix) s)
    suffix.

(** [s[:-1]]: everything but the last character; [''[:-1]] is ['']. *)
Definition drop_last (s : string) : string :=
  substring 0 (String.length s - 1) s.

(** [s.startswith(start)] *)
Fixpoint startswith (s start : string) {struct start} : bool :=
  match start with
  | EmptyString => true
  | String a start' =>
      match s with
      | EmptyString => false
      | String b s' => Ascii.eqb a b && startswith s' start'
      end
  end.

End Py.

(** ** What the script does to the outside world *)

Inductive level : Type := DEBUG | INFO | ERROR.

(** The arguments of [client.publish] and [client.will_set]. *)
Record message : Type := mk_message {
  topic : string;
  payload : string;
  qos : Z;
  retain : bool
}.

Inductive event : Type :=
| Log (lvl : level) (msg : string)      (* logging.debug / info / error *)
| Print (text : string)                 (* print(...) *)
| SetLevel (lvl : level)                (* logging.getLogger().setLevel *)
| SignalRegistered                      (* signal.signal(SIGINT, handler) *)
| ClientCreated                         (* mqtt.Client(...) *)
| UsernamePwSet (user password : string)
| WillSet (m : message)                 (* client.will_set *)
| ClientConnect (host : string) (port keepalive : Z)
| LoopStart                             (* client.loop_start() *)
| LoopStop                              (* client.loop_stop() *)
| Publish (m : message)                 (* client.publish *)
| ClientDisconnect                      (* client.disconnect() *)
| Sleep (seconds : Z).                  (* time.sleep *)

(** paho's [ReasonCode]: it compares with an [int] through [value] and is
    rendered in an f-string by its name. *)
Record ReasonCode : Type := mk_rc {
  value : Z;
  getName : string
}.

(** ** The agent object *)

Record MqttClient : Type := mk_self {
  mqtt_host : string;
  mqtt_port : Z;
  mqtt_user : string;
  mqtt_password : string;
  discovery_topic_prefix : string;
  topic_prefix : string;
  update_interval : Z;
  counter : Z
}.

Definition set_counter (self : MqttClient) (n : Z) : MqttClient :=
  mk_self (mqtt_host self) (mqtt_port self) (mqtt_user self)
          (mqtt_password self) (discovery_topic_prefix self)
          (topic_prefix self) (update_interval self) n.

(** ** The monad of methods *)

(** How a call ends: it returns, or [sys.exit(code)] was called (Python
    raises [SystemExit] in the calling thread), or [typer.Exit] was
    raised with the given exit code. *)
Inductive outcome (A : Type) : Type :=
| Returned (a : A)
| SystemExit (code : Z)
| TyperExit (code : Z).
Arguments Returned {A} a.
Arguments SystemExit {A} code.
Arguments TyperExit {A} code.

Record result (A : Type) : Type := mk_result {
  events : list event;
  final : MqttClient;
  out : outcome A
}.
Arguments mk_result {A} events final out.
Arguments events {A} r.
Arguments final {A} r.
Arguments out {A} r.

Definition M (A : Type) : Type := MqttClient -> result A.

Definition ret {A} (a : A) : M A :=
  fun self => mk_result [] self (Returned a).

Definition bind {A B} (c : M A) (k : A -> M B) : M B :=
  fun self =>
    let r := c self in
    match out r with
    | Returned a =>
        let r' := k a (final r) in
        mk_result (events r ++ events r') (final r') (out r')
    | SystemExit code => mk_result (events r) (final r) (SystemExit code)
    | TyperExit code => mk_result (events r) (final r) (TyperExit code)
    end.

Definition emit (e : event) : M unit :=
  fun self => mk_result [e] self (Returned tt).

Definition get_self : M MqttClient :=
  fun self => mk_result [] self (Returned self).

Definition put_self (s : MqttClient) : M unit :=
  fun _ => mk_result [] s (Returned tt).

Definition sys_exit {A} (code : Z) : M A :=
  fun self => mk_result [] self (SystemExit code).

Declare Scope py_scope.
Delimit Scope py_scope with py.
Notation "x <- c ;; k" := (bind c (fun x => k))
  (at level 61, c at next level, right associativity) : py_scope.
Notation "c ;; k" := (bind c (fun _ => k))
  (at level 61, right associativity) : py_scope.
Local Open Scope py_scope.

(** The messages handed to the broker client by a run: what was
    published, and what was registered as last will. *)
Fixpoint publishes (t : list event) : list message :=
  match t with
  | [] => []
  | Publish m :: t' => m :: publishes t'
  | _ :: t' => publishes t'
  end.

Fixpoint wills (t : list event) : list message :=
  match t with
  | [] => []
  | WillSet m :: t' => m :: wills t'
  | _ :: t' => wills t'
  end.

(** ** [MqttClient.__init__] (lines 50-91) *)

Definition __init__
    (mqtt_host : string) (mqtt_port : Z) (mqtt_user mqtt_password : string)
    (discovery_topic_prefix topic_prefix : string) (update_interval : Z)
  : result unit :=
  (* ensure there is no trailing slash on discovery_topic_prefix *)
  let self_discovery_topic_prefix :=
    if Py.endswith discovery_topic_prefix "/"
    then Py.drop_last discovery_topic_prefix
    else discovery_topic_prefix in
  (* ensure there is no trailing slash on topic_prefix *)
  let self_topic_prefix :=
    if Py.endswith topic_prefix "/"
    then Py.drop_last topic_prefix
    else topic_prefix in
  mk_result
    [ SignalRegistered;
      ClientCreated;
      UsernamePwSet mqtt_user mqtt_password;
      WillSet (mk_message (self_topic_prefix ++ "/status") "offline" 0 true) ]
    (mk_self mqtt_host mqtt_port mqtt_user mqtt_password
             self_discovery_topic_prefix self_topic_prefix
             update_interval
             0)
    (Returned tt).

(** ** The callbacks and methods of [MqttClient] *)

Definition logging_debug (msg : string) : M unit := emit (Log DEBUG msg).
Definition logging_info (msg : string) : M unit := emit (Log INFO msg).
Definition logging_error (msg : string) : M unit := emit (Log ERROR msg).

(** [self.client.publish(topic, payload=..., qos=..., retain=...)] *)
Definition client_publish (topic payload : string) (qos : Z) (retain : bool)
  : M unit :=
  emit (Publish (mk_message topic payload qos retain)).

(** Lines 112-114. *)
Definition publish_discovery : M unit :=
  logging_debug "--> publish_discovery".

(** Lines 123-125. *)
Definition remove_discovery : M unit :=
  logging_debug "--> remove_discovery".

(** Lines 93-106.  [client], [userdata], [flags] and [properties] only
    reach a log line; they are passed as their renderings. *)
Definition on_connect (client userdata flags : string) (rc : ReasonCode)
    (properties : string) : M unit :=
  logging_debug "--> on_connect" ;;
  logging_debug ("all: " ++ client ++ " - " ++ userdata ++ " - " ++ flags
                 ++ " - " ++ getName rc ++ " - " ++ properties) ;;
  if negb (value rc =? 0) then
    logging_error ("Connection failed with reason code: " ++ getName rc) ;;
    sys_exit 1  (* exit this thread *)
  else
    logging_info ("Connection successful with reason code: " ++ getName rc) ;;
    logging_debug "Initial publishing of status" ;;
    self <- get_self ;;
    client_publish (topic_prefix self ++ "/status") "online" 0 true ;;
    logging_debug "Initial publishing of discovery" ;;
    publish_discovery.

(** Lines 108-110; [rc] is rendered into the log line. *)
Definition on_disconnect (client userdata rc : string) : M unit :=
  logging_debug ("--> on_disconnected - reason code: " ++ rc) ;;
  emit LoopStop.

(** Lines 116-121. *)
Definition regular_update : M unit :=
  logging_info "--> regular_update" ;;
  self <- get_self ;;
  put_self (set_counter self (counter self + 1)) ;;
  self <- get_self ;;
  client_publish (topic_prefix self ++ "/status")
                 ("update:" ++ Py.str_int (counter self)) 0 true.

(** Lines 159-167.  The handler ignores its arguments [sig] and [frame]. *)
Definition signal_handler : M unit :=
  logging_debug "received SIGINT" ;;
  self <- get_self ;;
  client_publish (topic_prefix self ++ "/status") "goodbye" 0 true ;;
  emit ClientDisconnect ;;
  logging_info "--> clean exit" ;;
  sys_exit 0.

(** ** [MqttClient.run] (lines 127-157)

    [run] is a prologue followed by [while True].  The prologue is
    [run_prologue]; one pass through the body of the loop is
    [run_iteration], which takes what [threading.active_count()] returns in
    that pass.  The loop itself is driven by the process model below. *)

Definition run_prologue : M unit :=
  self <- get_self ;;
  logging_info "### SETTINGS: Start  #################################" ;;
  logging_info ("Connection:              " ++ mqtt_user self ++ "@"
                ++ mqtt_host self ++ ":" ++ Py.str_int (mqtt_port self)) ;;
  logging_info ("Interval (s):            "
                ++ Py.str_int (update_interval self)) ;;
  logging_info ("Discovery topic prefix:  " ++ discovery_topic_prefix self) ;;
  logging_info ("Topic prefix:            " ++ topic_prefix self) ;;
  logging_info "### SETTINGS: End    #################################" ;;
  emit (ClientConnect (mqtt_host self) (mqtt_port self) 60) ;;
  (* start MQTT loop *)
  emit LoopStart ;;
  (* do something before loop *)
  logging_debug "before loop".

Definition run_iteration (active_count : Z) : M unit :=
  (if active_count =? 1 then
     logging_error
       "Only one thread running, should be at least two -> exiting." ;;
     sys_exit 1
   else ret tt) ;;
  (* do something in loop before sleep *)
  logging_debug "in loop: before sleep" ;;
  regular_update ;;
  (* sleep for a while *)
  self <- get_self ;;
  emit (Sleep (update_interval self)) ;;
  (* do something in loop after sleep *)
  logging_debug "in loop: after sleep".

(** ** The command line (lines 43-47 and 170-237) *)

Definition __version__ : string := "0.1.0".

(** [version_callback]: [value] is [None] when [--version] is absent. *)
Definition version_callback (value : option bool)
  : list event * outcome unit :=
  match value with
  | Some true =>
      ([Print ("My Service Start Version: " ++ __version__)], TyperExit 0)
  | _ => ([], Returned tt)
  end.

(** The values [main] receives. *)
Record options : Type := mk_options {
  opt_mqtt_host : string;
  opt_mqtt_port : Z;
  opt_mqtt_user : string;
  opt_mqtt_password : string;
  opt_discovery_topic_prefix : string;
  opt_topic_prefix : string;
  opt_update_interval : Z;
  opt_debug : bool;
  opt_version : option bool
}.

(** The defaults of lines 174-216. *)
Definition default_options : options :=
  mk_options "homeassistant.local" 1883 "mqttuser" "changeme"
             "homeassistant/sensor/foobar" "home/nodes/sensor/foobar"
             300 false None.

(** ** The running process

    Two threads exist once [run] has called [loop_start]: the main thread,
    which executes the [while True] loop and, on SIGINT, [signal_handler];
    and paho's network thread, which calls [on_connect].  A process is
    either [Live], with the agent object, whether the network thread is
    still running, and the events so far; or [Dead] with its exit code. *)

Inductive process : Type :=
| Live (self : MqttClient) (net_alive : bool) (trace : list event)
| Dead (code : Z) (trace : list event).

Definition trace_of (p : process) : list event :=
  match p with
  | Live _ _ t => t
  | Dead _ t => t
  end.

Definition exit_status (p : process) : option Z :=
  match p with
  | Live _ _ _ => None
  | Dead code _ => Some code
  end.

Definition network_thread_alive (p : process) : bool :=
  match p with
  | Live _ net _ => net
  | Dead _ _ => false
  end.

(** [threading.active_count()]: the main thread, and the network thread
    while it runs. *)
Definition threading_active_count (net_alive : bool) : Z :=
  if net_alive then 2 else 1.

(** A call made by the main thread: an exit ends the process. *)
Definition in_main_thread (r : result unit) (net_alive : bool)
    (t : list event) : process :=
  match out r with
  | Returned _ => Live (final r) net_alive (t ++ events r)
  | SystemExit code => Dead code (t ++ events r)
  | TyperExit code => Dead code (t ++ events r)
  end.

(** A callback made by the network thread: [SystemExit] raised there ends
    that thread, and the process goes on. *)
Definition in_network_thread (r : result unit) (t : list event) : process :=
  match out r with
  | Returned _ => Live (final r) true (t ++ events r)
  | SystemExit _ => Live (final r) false (t ++ events r)
  | TyperExit _ => Live (final r) false (t ++ events r)
  end.

(** [mc = MqttClient(...)] (lines 223-231). *)
Definition construct (o : options) : result unit :=
  __init__ (opt_mqtt_host o) (opt_mqtt_port o) (opt_mqtt_user o)
           (opt_mqtt_password o) (opt_discovery_topic_prefix o)
           (opt_topic_prefix o) (opt_update_interval o).

(** [main] (lines 218-233) up to the entry of the loop; [client.connect]
    is taken to return. *)
Definition main (o : options) : process :=
  let lvl := if opt_debug o then DEBUG else INFO in
  let mc := construct o in
  in_main_thread (run_prologue (final mc)) true
                 (SetLevel lvl :: events mc).

(** [typer.run(main)]: [--version] is eager, so its callback runs before
    the other parameters are handled and before [main]. *)
Definition typer_run (o : options) : process :=
  match version_callback (opt_version o) with
  | (evs, Returned _) =>
      match main o with
      | Live self net t => Live self net (evs ++ t)
      | Dead code t => Dead code (evs ++ t)
      end
  | (evs, SystemExit code) => Dead code evs
  | (evs, TyperExit code) => Dead code evs
  end.

(** What can happen next to a live process. *)
Inductive action : Type :=
| Iterate      (* the main thread makes one pass through the loop *)
| Connack (client userdata flags : string) (rc : ReasonCode)
          (properties : string)
               (* the network thread calls [on_connect] *)
| NetDown      (* the network thread ends *)
| Sigint.      (* SIGINT arrives: the main thread runs [signal_handler] *)

Definition step (a : action) (p : process) : process :=
  match p with
  | Dead _ _ => p
  | Live self net t =>
      match a with
      | Iterate =>
          in_main_thread (run_iteration (threading_active_count net) self)
                         net t
      | Connack client userdata flags rc properties =>
          if net then
            in_network_thread
              (on_connect client userdata flags rc properties self) t
          else p
      | NetDown => Live self false t
      | Sigint => in_main_thread (signal_handler self) net t
      end
  end.

(** An interleaving of the two threads and the signal is a list of
    actions. *)
Definition exec (schedule : list action) (p : process) : process :=
  fold_left (fun q a => step a q) schedule p.

(** ** Vocabulary of the statements *)

(** [n] successive calls of a method on the same object. *)
Fixpoint repeat_call (n : nat) (c : M unit) : M unit :=
  match n with
  | O => ret tt
  | S k => c ;; repeat_call k c
  end.

(** The periodic updates among the published messages: those whose
    payload starts with ["update:"]. *)
Definition is_update (m : message) : bool :=
  Py.startswith (payload m) "update:".

Definition updates (t : list event) : list message :=
  filter is_update (publishes t).

(** Every message handed to the client, as last will or to be published. *)
Definition messages (t : list event) : list message :=
  wills t ++ publishes t.

(** The [n]th periodic update of an agent publishing under [prefix]. *)
Definition update_message (prefix : string) (n : Z) : message :=
  mk_message (prefix ++ "/status") ("update:" ++ Py.str_int n) 0 true.

(** The updates published so far are numbered 1, 2, ..., and a live
    process holds the last number in its counter. *)
Definition numbered (prefix : string) (p : process) : Prop :=
  exists n : nat,
    updates (trace_of p)
    = map (fun k => update_message prefix (Z.of_nat k)) (seq 1 n) /\
    match p with
    | Live self _ _ =>
        counter self = Z.of_nat n /\ topic_prefix self = prefix
    | Dead _ _ => True
    end.

(** No periodic update is published before the first ["online"]. *)
Fixpoint online_before_updates (ms : list message) : bool :=
  match ms with
  | [] => true
  | m :: ms' =>
      if is_update m then false
      else if String.eqb (payload m) "online" then true
      else online_before_updates ms'
  end.

(** The same command line with another [--discovery-topic-prefix]. *)
Definition with_discovery_topic_prefix (o : options) (d : string) : options :=
  mk_options (opt_mqtt_host o) (opt_mqtt_port o) (opt_mqtt_user o)
             (opt_mqtt_password o) d (opt_topic_prefix o)
             (opt_update_interval o) (opt_debug o) (opt_version o).

(** Two processes that have handed the same messages to the client and
    agree on what decides the next ones. *)
Definition same_messages (p1 p2 : process) : Prop :=
  wills (trace_of p1) = wills (trace_of p2) /\
  publishes (trace_of p1) = publishes (trace_of p2) /\
  match p1, p2 with
  | Live s1 n1 _, Live s2 n2 _ =>
      n1 = n2 /\ topic_prefix s1 = topic_prefix s2 /\ counter s1 = counter s2
  | Dead c1 _, Dead c2 _ => c1 = c2
  | _, _ => False
  end.

(** A message of the agent: on the status topic under [prefix], and one
    of the four kinds the script sends. *)
Definition status_message (prefix : string) (m : message) : Prop :=
  topic m = prefix ++ "/status" /\
  (payload m = "offline" \/ payload m = "online" \/
   payload m = "goodbye" \/ is_update m = true).

(** The durations handed to [time.sleep], in order. *)
Fixpoint sleeps (t : list event) : list Z :=
  match t with
  | [] => []
  | Sleep seconds :: t' => seconds :: sleeps t'
  | _ :: t' => sleeps t'
  end.

(** The calls of [client.connect], in order: host, port, keepalive. *)
Fixpoint connects (t : list event) : list (string * Z * Z) :=
  match t with
  | [] => []
  | ClientConnect host port keepalive :: t' =>
      (host, port, keepalive) :: connects t'
  | _ :: t' => connects t'
  end.

(** The lines logged at ERROR level, in order. *)
Fixpoint errors (t : list event) : list string :=
  match t with
  | [] => []
  | Log ERROR msg :: t' => msg :: errors t'
  | _ :: t' => errors t'
  end.







(** The same command line with another [--mqtt-password], or another
    [--debug]. *)
Definition with_mqtt_password (o : options) (pw : string) : options :=
  mk_options (opt_mqtt_host o) (opt_mqtt_port o) (opt_mqtt_user o)
             pw (opt_discovery_topic_prefix o) (opt_topic_prefix o)
             (opt_update_interval o) (opt_debug o) (opt_version o).

Definition with_debug (o : options) (debug : bool) : options :=
  mk_options (opt_mqtt_host o) (opt_mqtt_port o) (opt_mqtt_user o)
             (opt_mqtt_password o) (opt_discovery_topic_prefix o)
             (opt_topic_prefix o) (opt_update_interval o) debug
             (opt_version o).

(** What the events after start-up depend on: two agent objects with the
    same topic prefix, interval and counter. *)
Definition agree (s1 s2 : MqttClient) : Prop :=
  topic_prefix s1 = topic_prefix s2 /\
  update_interval s1 = update_interval s2 /\
  counter s1 = counter s2.

(** Reading a decimal numeral back, the inverse of [Py.str_int]. *)
Definition read_int (s : string) : option Z :=
  option_map Z.of_int (NilZero.int_of_string s).

(** The events of a run from [main] up to the entry of the loop. *)
Definition startup (o : options) : list event :=
  (SetLevel (if opt_debug o then DEBUG else INFO) :: events (construct o))
  ++ events (run_prologue (final (construct o))).

(** * Properties *)

(** ** Strings *)

Section StringFacts.

Lemma length_append (s1 s2 : string) :
  String.length (s1 ++ s2) = (String.length s1 + String.length s2)%nat.
Proof.
  induction s1 as [|c s1 IH]; simpl; [reflexivity | now rewrite IH].
Qed.

Lemma substring_all_of_left (s1 s2 : string) :
  substring 0 (String.length s1) (s1 ++ s2) = s1.
Proof.
  induction s1 as [|c s1 IH]; simpl.
  - now destruct s2.
  - now rewrite IH.
Qed.

Lemma substring_right (s1 s2 : string) :
  substring (String.length s1) (String.length s2) (s1 ++ s2) = s2.
Proof.
  induction s1 as [|c s1 IH]; simpl; [|exact IH].
  induction s2 as [|c s2 IH]; simpl; [reflexivity | now rewrite IH].
Qed.

(** [(s ++ suffix).endswith(suffix)] *)
Lemma endswith_append (s suffix : string) :
  Py.endswith (s ++ suffix) suffix = true.
Proof.
  unfold Py.endswith. rewrite length_append.
  replace (String.length s + String.length suffix - String.length suffix)%nat
    with (String.length s) by lia.
  rewrite substring_right, String.eqb_refl, andb_true_r.
  apply Nat.leb_le. lia.
Qed.

(** [(s + c)[:-1] == s] for a character [c]. *)
Lemma drop_last_append_char (s : string) (c : ascii) :
  Py.drop_last (s ++ String c "") = s.
Proof.
  unfold Py.drop_last. rewrite length_append. simpl.
  replace (String.length s + 1 - 1)%nat with (String.length s) by lia.
  apply substring_all_of_left.
Qed.

End StringFacts.

(** ** The constructor *)

Section Constructor.

Variables (host : string) (port : Z) (user password : string).
Variables (interval : Z).

(** A topic prefix without a trailing slash is stored as it is. *)
Lemma init_keeps_prefix_without_slash (d p : string) :
  Py.endswith p "/" = false ->
  topic_prefix (final (__init__ host port user password d p interval)) = p.
Proof. intros H. simpl. now rewrite H. Qed.

(** One trailing slash is removed from the topic prefix. *)
Lemma init_drops_one_slash (d q : string) :
  topic_prefix
    (final (__init__ host port user password d (q ++ "/") interval)) = q.
Proof.
  simpl. rewrite endswith_append. apply drop_last_append_char.
Qed.

(** The same holds for the discovery topic prefix. *)
Lemma init_drops_one_discovery_slash (q p : string) :
  discovery_topic_prefix
    (final (__init__ host port user password (q ++ "/") p interval)) = q.
Proof.
  simpl. rewrite endswith_append. apply drop_last_append_char.
Qed.

(** The constructor starts the counter at 0 and leaves the other
    settings as given. *)
Lemma init_fields (d p : string) :
  let self := final (__init__ host port user password d p interval) in
  mqtt_host self = host /\ mqtt_port self = port /\
  mqtt_user self = user /\ mqtt_password self = password /\
  update_interval self = interval /\ counter self = 0.
Proof. simpl. repeat split. Qed.

End Constructor.

(** C1, where the code departs from it.  The specification has a
    configured prefix ending in one or more ['/'] stored with all its
    trailing slashes removed, so that a stored prefix never ends with
    ['/'] and normalising a stored prefix again changes nothing.  The
    constructor removes one character only: from ["home//"] it stores
    ["home/"], which still ends with ['/'], and constructing again from
    the stored value gives ["home"]; the discovery prefix fares the
    same. *)
Theorem init_two_slashes_keeps_one :
  let self := final (__init__ "broker" 1883 "user" "secret"
                              "disc//" "home//" 300) in
  let again := final (__init__ "broker" 1883 "user" "secret"
                               (discovery_topic_prefix self)
                               (topic_prefix self) 300) in
  topic_prefix self = "home/" /\
  Py.endswith (topic_prefix self) "/" = true /\
  discovery_topic_prefix self = "disc/" /\
  Py.endswith (discovery_topic_prefix self) "/" = true /\
  topic_prefix again = "home" /\
  topic_prefix again <> topic_prefix self.
Proof.
  cbv zeta. repeat split; try reflexivity. discriminate.
Qed.

(** ** Traces *)

Section TraceFacts.

Lemma publishes_app (t1 t2 : list event) :
  publishes (t1 ++ t2) = (publishes t1 ++ publishes t2)%list.
Proof.
  induction t1 as [|e t1 IH]; simpl; [reflexivity|].
  destruct e; simpl; now rewrite ?IH.
Qed.

Lemma wills_app (t1 t2 : list event) :
  wills (t1 ++ t2) = (wills t1 ++ wills t2)%list.
Proof.
  induction t1 as [|e t1 IH]; simpl; [reflexivity|].
  destruct e; simpl; now rewrite ?IH.
Qed.

Lemma updates_app (t1 t2 : list event) :
  updates (t1 ++ t2) = (updates t1 ++ updates t2)%list.
Proof. unfold updates. now rewrite publishes_app, filter_app. Qed.

Lemma exec_app (s1 s2 : list action) (p : process) :
  exec (s1 ++ s2)%list p = exec s2 (exec s1 p).
Proof. apply fold_left_app. Qed.

Lemma exec_cons (a : action) (s : list action) (p : process) :
  exec (a :: s) p = exec s (step a p).
Proof. reflexivity. Qed.

(** Nothing happens to a process that has exited. *)
Lemma exec_dead (s : list action) (code : Z) (t : list event) :
  exec s (Dead code t) = Dead code t.
Proof. induction s as [|a s IH]; [reflexivity | exact IH]. Qed.

End TraceFacts.

(** ** Sequencing *)

Section MonadFacts.

Context {A B : Type}.

(** When the first call returns, the second runs on the object it left. *)
Lemma bind_returned (c : M A) (k : A -> M B) (self s : MqttClient)
    (ev : list event) (a : A) :
  c self = mk_result ev s (Returned a) ->
  bind c k self
  = mk_result (ev ++ events (k a s)) (final (k a s)) (out (k a s)).
Proof. intros H. unfold bind. rewrite H. reflexivity. Qed.

(** When the first call exits, the second never runs. *)
Lemma bind_exited (c : M A) (k : A -> M B) (self s : MqttClient)
    (ev : list event) (code : Z) :
  c self = mk_result ev s (SystemExit code) ->
  bind c k self = mk_result ev s (SystemExit code).
Proof. intros H. unfold bind. rewrite H. reflexivity. Qed.

End MonadFacts.

(** ** What each method does, written out *)

Section Methods.

Variable self : MqttClient.

Lemma regular_update_run :
  regular_update self =
  mk_result
    [ Log INFO "--> regular_update";
      Publish (mk_message (topic_prefix self ++ "/status")
                          ("update:" ++ Py.str_int (counter self + 1))
                          0 true) ]
    (set_counter self (counter self + 1))
    (Returned tt).
Proof. reflexivity. Qed.

Lemma publish_discovery_run :
  publish_discovery self =
  mk_result [Log DEBUG "--> publish_discovery"] self (Returned tt).
Proof. reflexivity. Qed.

Lemma signal_handler_run :
  signal_handler self =
  mk_result
    [ Log DEBUG "received SIGINT";
      Publish (mk_message (topic_prefix self ++ "/status") "goodbye"
                          0 true);
      ClientDisconnect;
      Log INFO "--> clean exit" ]
    self
    (SystemExit 0).
Proof. reflexivity. Qed.

Variables (client userdata flags : string) (rc : ReasonCode).
Variable properties : string.

Lemma on_connect_success :
  value rc = 0 ->
  on_connect client userdata flags rc properties self =
  mk_result
    [ Log DEBUG "--> on_connect";
      Log DEBUG ("all: " ++ client ++ " - " ++ userdata ++ " - " ++ flags
                 ++ " - " ++ getName rc ++ " - " ++ properties);
      Log INFO ("Connection successful with reason code: " ++ getName rc);
      Log DEBUG "Initial publishing of status";
      Publish (mk_message (topic_prefix self ++ "/status") "online"
                          0 true);
      Log DEBUG "Initial publishing of discovery";
      Log DEBUG "--> publish_discovery" ]
    self
    (Returned tt).
Proof.
  intros H. unfold on_connect, bind. simpl. rewrite H. reflexivity.
Qed.

Lemma on_connect_failure :
  value rc <> 0 ->
  on_connect client userdata flags rc properties self =
  mk_result
    [ Log DEBUG "--> on_connect";
      Log DEBUG ("all: " ++ client ++ " - " ++ userdata ++ " - " ++ flags
                 ++ " - " ++ getName rc ++ " - " ++ properties);
      Log ERROR ("Connection failed with reason code: " ++ getName rc) ]
    self
    (SystemExit 1).
Proof.
  intros H. apply Z.eqb_neq in H.
  unfold on_connect, bind. simpl. rewrite H. reflexivity.
Qed.

Lemma run_iteration_alone :
  run_iteration 1 self =
  mk_result
    [ Log ERROR
        "Only one thread running, should be at least two -> exiting." ]
    self
    (SystemExit 1).
Proof. reflexivity. Qed.

Lemma run_iteration_update (active_count : Z) :
  active_count <> 1 ->
  run_iteration active_count self =
  mk_result
    [ Log DEBUG "in loop: before sleep";
      Log INFO "--> regular_update";
      Publish (mk_message (topic_prefix self ++ "/status")
                          ("update:" ++ Py.str_int (counter self + 1))
                          0 true);
      Sleep (update_interval self);
      Log DEBUG "in loop: after sleep" ]
    (set_counter self (counter self + 1))
    (Returned tt).
Proof.
  intros H. apply Z.eqb_neq in H.
  unfold run_iteration, bind. simpl. rewrite H. reflexivity.
Qed.

End Methods.

(** ** What each action does to a live process *)

Section Steps.

Variables (self : MqttClient) (t : list event).

Lemma step_iterate_live :
  step Iterate (Live self true t) =
  Live (set_counter self (counter self + 1)) true
       (t ++ [ Log DEBUG "in loop: before sleep";
               Log INFO "--> regular_update";
               Publish (update_message (topic_prefix self)
                                       (counter self + 1));
               Sleep (update_interval self);
               Log DEBUG "in loop: after sleep" ]).
Proof. reflexivity. Qed.

Lemma step_iterate_alone :
  step Iterate (Live self false t) =
  Dead 1 (t ++ [ Log ERROR
    "Only one thread running, should be at least two -> exiting." ]).
Proof. reflexivity. Qed.

Lemma step_sigint (net : bool) :
  step Sigint (Live self net t) =
  Dead 0 (t ++ events (signal_handler self)).
Proof. reflexivity. Qed.

Variables (client userdata flags : string) (rc : ReasonCode).
Variable properties : string.

Lemma step_connack_ok :
  value rc = 0 ->
  step (Connack client userdata flags rc properties) (Live self true t) =
  Live self true
       (t ++ events (on_connect client userdata flags rc properties self))
  /\ publishes (events (on_connect client userdata flags rc properties self))
     = [mk_message (topic_prefix self ++ "/status") "online" 0 true].
Proof.
  intros H. unfold step, in_network_thread.
  rewrite (on_connect_success self client userdata flags rc properties H).
  split; reflexivity.
Qed.

Lemma step_connack_failed :
  value rc <> 0 ->
  step (Connack client userdata flags rc properties) (Live self true t) =
  Live self false
       (t ++ events (on_connect client userdata flags rc properties self))
  /\ publishes (events (on_connect client userdata flags rc properties self))
     = [].
Proof.
  intros H. unfold step, in_network_thread.
  rewrite (on_connect_failure self client userdata flags rc properties H).
  split; reflexivity.
Qed.

Lemma step_connack_no_thread :
  step (Connack client userdata flags rc properties) (Live self false t) =
  Live self false t.
Proof. reflexivity. Qed.

End Steps.

(** Splits a step of a live process into the cases above. *)
Ltac step_cases a net :=
  let E := fresh "E" in
  let Hs := fresh "Hstep" in
  let Hp := fresh "Hpub" in
  destruct a as [|?client ?userdata ?flags ?rc ?properties| |];
  [ destruct net; [rewrite step_iterate_live | rewrite step_iterate_alone]
  | destruct net;
    [ match goal with
      | |- context [step (Connack ?c ?u ?f ?r ?pr) (Live ?s true ?t)] =>
          destruct (Z.eq_dec (value r) 0) as [E|E];
          [ destruct (step_connack_ok s t c u f r pr E) as [Hs Hp]
          | destruct (step_connack_failed s t c u f r pr E) as [Hs Hp] ];
          rewrite Hs
      end
    | rewrite step_connack_no_thread ]
  | cbn [step]
  | rewrite step_sigint, signal_handler_run; cbn [events] ].

(** ** The numbering of updates *)

Section Numbering.

Variable prefix : string.

Lemma is_update_update_message (n : Z) :
  is_update (update_message prefix n) = true.
Proof. reflexivity. Qed.

Lemma numbered_step (a : action) (p : process) :
  numbered prefix p -> numbered prefix (step a p).
Proof.
  destruct p as [self net t | code t]; [|exact (fun H => H)].
  intros (n & Hu & Hc & Hp). cbn [trace_of] in Hu.
  step_cases a net.
  - exists (S n). cbn [trace_of]. rewrite updates_app, Hu, seq_S, map_app.
    split; [|split; [cbn; lia | exact Hp]].
    unfold updates at 1. cbn.
    rewrite Hp, Hc. do 3 f_equal. lia.
  - exists n. cbn [trace_of]. rewrite updates_app, Hu.
    split; [apply app_nil_r | exact I].
  - exists n. cbn [trace_of]. rewrite updates_app. unfold updates at 2.
    rewrite Hpub, Hu. split; [apply app_nil_r | now split].
  - exists n. cbn [trace_of]. rewrite updates_app. unfold updates at 2.
    rewrite Hpub, Hu. split; [apply app_nil_r | now split].
  - exists n. now repeat split.
  - exists n. now repeat split.
  - exists n. cbn [trace_of]. rewrite updates_app, Hu.
    split; [apply app_nil_r | exact I].
Qed.

Lemma numbered_exec (schedule : list action) (p : process) :
  numbered prefix p -> numbered prefix (exec schedule p).
Proof.
  revert p. induction schedule as [|a s IH]; intros p H; [exact H|].
  rewrite exec_cons. apply IH, numbered_step, H.
Qed.

End Numbering.

Lemma numbered_typer_run (o : options) :
  numbered (topic_prefix (final (construct o))) (typer_run o).
Proof.
  exists 0%nat. unfold typer_run.
  destruct (opt_version o) as [[|]|]; cbn; repeat split.
Qed.

(** ** Successive calls of [regular_update] *)

Section RepeatedUpdates.

Lemma repeat_regular_update (n : nat) (self : MqttClient) :
  let r := repeat_call n regular_update self in
  out r = Returned tt /\
  counter (final r) = counter self + Z.of_nat n /\
  topic_prefix (final r) = topic_prefix self /\
  publishes (events r)
  = map (fun k => update_message (topic_prefix self)
                                 (counter self + Z.of_nat k))
        (seq 1 n).
Proof.
  revert self. induction n as [|n IH]; intros self.
  - cbn. repeat split. lia.
  - specialize (IH (set_counter self (counter self + 1))).
    cbv zeta in IH. destruct IH as (Ho & Hc & Hp & Hm).
    cbn [repeat_call].
    rewrite (bind_returned _ _ _ _ _ _ (regular_update_run self)).
    cbn [out final events].
    repeat split.
    + exact Ho.
    + rewrite Hc. cbn [counter set_counter]. lia.
    + rewrite Hp. reflexivity.
    + cbn [app publishes]. rewrite Hm.
      cbn [seq map]. f_equal.
      rewrite <- (seq_shift n 1), map_map. apply map_ext.
      intros k. cbn [topic_prefix counter set_counter].
      f_equal. lia.
Qed.

End RepeatedUpdates.

(** C2.  For every N >= 1, the Nth call of [regular_update] on a freshly
    constructed agent logs and publishes ["update:N"], retained, QoS 0, to
    ["{topic_prefix}/status"], and takes the counter from N-1 to N (so the
    first update carries 1).  The counter is never reset: in every run of
    the program, whatever the order of loop passes, connect callbacks and
    signals, the Nth periodic update published, when there is one, is
    that same message. *)
Theorem regular_update_nth_call :
  forall (host : string) (port : Z) (user password d p : string)
         (interval : Z) (N : nat),
    (1 <= N)%nat ->
    let self0 := final (__init__ host port user password d p interval) in
    let before := final (repeat_call (N - 1) regular_update self0) in
    regular_update before
    = mk_result
        [ Log INFO "--> regular_update";
          Publish (mk_message (topic_prefix self0 ++ "/status")
                              ("update:" ++ Py.str_int (Z.of_nat N))
                              0 true) ]
        (set_counter before (Z.of_nat N))
        (Returned tt)
    /\ counter before = Z.of_nat N - 1
    /\ counter (final (regular_update before)) = Z.of_nat N
    /\ forall (o : options) (schedule : list action) (m : message),
         nth_error (updates (trace_of (exec schedule (typer_run o)))) (N - 1)
         = Some m ->
         m = mk_message (topic_prefix (final (construct o)) ++ "/status")
                        ("update:" ++ Py.str_int (Z.of_nat N)) 0 true.
Proof.
  intros host port user password d p interval N HN self0 before.
  destruct (repeat_regular_update (N - 1) self0) as (_ & Hc & Hp & _).
  fold before in Hc, Hp.
  assert (Hbefore : counter before + 1 = Z.of_nat N).
  { rewrite Hc. cbn. lia. }
  repeat split.
  - rewrite regular_update_run, Hp, Hbefore. reflexivity.
  - lia.
  - rewrite regular_update_run. cbn. exact Hbefore.
  - intros o schedule m Hm.
    destruct (numbered_exec _ schedule _ (numbered_typer_run o))
      as (n & Hu & _).
    rewrite Hu, nth_error_map, nth_error_seq in Hm.
    destruct (N - 1 <? n)%nat; [|discriminate].
    replace (1 + (N - 1))%nat with N in Hm by lia.
    cbn [option_map] in Hm. injection Hm as <-. reflexivity.
Qed.

Lemma regular_update_nth_call_witness :
  (1 <= 3)%nat /\
  regular_update
    (final (repeat_call 2 regular_update
              (final (__init__ "broker" 1883 "user" "secret"
                               "disc" "home" 300))))
  = mk_result
      [ Log INFO "--> regular_update";
        Publish (mk_message "home/status" "update:3" 0 true) ]
      (mk_self "broker" 1883 "user" "secret" "disc" "home" 300 3)
      (Returned tt).
Proof.
  split; [lia|].
  exact (proj1 (regular_update_nth_call "broker" 1883 "user" "secret"
                  "disc" "home" 300 3%nat ltac:(lia))).
Defined.

(** ** The interrupt *)

(** C3, as the code has it.  On SIGINT the handler publishes ["goodbye"]
    to ["{topic_prefix}/status"] exactly once, QoS 0 and retained, then
    disconnects the client, then exits with code 0; the process is then
    over, so whatever is scheduled afterwards adds nothing: no further
    periodic update occurs. *)
Theorem sigint_goodbye_disconnect_exit :
  forall (self : MqttClient) (net : bool) (t : list event)
         (afterwards : list action),
    signal_handler self
    = mk_result
        [ Log DEBUG "received SIGINT";
          Publish (mk_message (topic_prefix self ++ "/status") "goodbye"
                              0 true);
          ClientDisconnect;
          Log INFO "--> clean exit" ]
        self
        (SystemExit 0)
    /\ exec (Sigint :: afterwards) (Live self net t)
       = Dead 0 (t ++ [ Log DEBUG "received SIGINT";
                        Publish (mk_message (topic_prefix self ++ "/status")
                                            "goodbye" 0 true);
                        ClientDisconnect;
                        Log INFO "--> clean exit" ]).
Proof.
  intros self net t afterwards. split; [reflexivity|].
  rewrite exec_cons, step_sigint, exec_dead. reflexivity.
Qed.

(** C3 as specified fails: the farewell message is published with
    [retain=True], not unretained. *)
Lemma sigint_goodbye_is_retained :
  publishes
    (events (signal_handler
               (final (__init__ "broker" 1883 "user" "secret"
                                "disc" "home" 300))))
  = [mk_message "home/status" "goodbye" 0 true]
  /\ publishes
       (events (signal_handler
                  (final (__init__ "broker" 1883 "user" "secret"
                                   "disc" "home" 300))))
     <> [mk_message "home/status" "goodbye" 0 false].
Proof. split; [reflexivity | discriminate]. Qed.

(** ** The connect callback *)

(** C4, as the code has it.  Called with a non-zero reason code,
    [on_connect] logs an error and calls [sys.exit(1)] without publishing
    anything.  The callback runs in the network thread, so the exit ends
    that thread and the process stays alive; the next pass of the loop in
    [run] then finds a single thread, logs an error and ends the process
    with exit code 1, again without publishing. *)
Theorem on_connect_failure_ends_network_thread :
  forall (self : MqttClient) (t : list event)
         (client userdata flags : string) (rc : ReasonCode)
         (properties : string),
    value rc <> 0 ->
    let failed :=
      [ Log DEBUG "--> on_connect";
        Log DEBUG ("all: " ++ client ++ " - " ++ userdata ++ " - " ++ flags
                   ++ " - " ++ getName rc ++ " - " ++ properties);
        Log ERROR ("Connection failed with reason code: " ++ getName rc) ] in
    on_connect client userdata flags rc properties self
    = mk_result failed self (SystemExit 1)
    /\ publishes failed = []
    /\ step (Connack client userdata flags rc properties) (Live self true t)
       = Live self false (t ++ failed)
    /\ exec [Connack client userdata flags rc properties; Iterate]
            (Live self true t)
       = Dead 1 ((t ++ failed) ++
                 [ Log ERROR
                     "Only one thread running, should be at least two -> exiting." ]).
Proof.
  intros self t client userdata flags rc properties H failed.
  pose proof (on_connect_failure self client userdata flags rc properties H)
    as Hrun.
  fold failed in Hrun.
  destruct (step_connack_failed self t client userdata flags rc properties H)
    as [Hstep _].
  rewrite Hrun in Hstep. cbn [events] in Hstep.
  repeat split.
  - exact Hrun.
  - exact Hstep.
  - rewrite exec_cons, Hstep. reflexivity.
Qed.

Lemma on_connect_failure_ends_network_thread_witness :
  135 <> 0 /\
  exec [Connack "client" "None" "{}" (mk_rc 135 "Not authorized") "None";
        Iterate]
       (Live (mk_self "broker" 1883 "user" "secret" "disc" "home" 300 0)
             true [])
  = Dead 1 [ Log DEBUG "--> on_connect";
             Log DEBUG "all: client - None - {} - Not authorized - None";
             Log ERROR "Connection failed with reason code: Not authorized";
             Log ERROR
               "Only one thread running, should be at least two -> exiting." ].
Proof.
  split; [lia|].
  exact (proj2 (proj2 (proj2
    (on_connect_failure_ends_network_thread
       (mk_self "broker" 1883 "user" "secret" "disc" "home" 300 0) []
       "client" "None" "{}" (mk_rc 135 "Not authorized") "None"
       ltac:(cbn; lia))))).
Defined.

(** C4 as specified fails: after a connect callback with a failure
    reason code the process has not exited. *)
Lemma failed_connect_leaves_process_running :
  exit_status
    (step (Connack "client" "None" "{}" (mk_rc 135 "Not authorized") "None")
          (typer_run default_options))
  = None
  /\ exit_status
       (step (Connack "client" "None" "{}" (mk_rc 135 "Not authorized")
                      "None")
             (typer_run default_options))
     <> Some 1.
Proof. split; [reflexivity | discriminate]. Qed.

(** C5.  Called with reason code 0, [on_connect] publishes exactly one
    message, ["online"] to ["{topic_prefix}/status"], retained, QoS 0, and
    then calls [publish_discovery], which logs one line and does nothing
    else. *)
Theorem on_connect_success_publishes_online :
  forall (self : MqttClient) (client userdata flags : string)
         (rc : ReasonCode) (properties : string),
    value rc = 0 ->
    on_connect client userdata flags rc properties self
    = mk_result
        ([ Log DEBUG "--> on_connect";
           Log DEBUG ("all: " ++ client ++ " - " ++ userdata ++ " - "
                      ++ flags ++ " - " ++ getName rc ++ " - " ++ properties);
           Log INFO ("Connection successful with reason code: "
                     ++ getName rc);
           Log DEBUG "Initial publishing of status";
           Publish (mk_message (topic_prefix self ++ "/status") "online"
                               0 true);
           Log DEBUG "Initial publishing of discovery" ]
         ++ events (publish_discovery self))
        self
        (Returned tt)
    /\ publishes (events (on_connect client userdata flags rc properties self))
       = [mk_message (topic_prefix self ++ "/status") "online" 0 true]
    /\ publish_discovery self
       = mk_result [Log DEBUG "--> publish_discovery"] self (Returned tt).
Proof.
  intros self client userdata flags rc properties H.
  rewrite (on_connect_success self client userdata flags rc properties H).
  repeat split.
Qed.

Lemma on_connect_success_publishes_online_witness :
  0 = 0 /\
  publishes
    (events (on_connect "client" "None" "{}" (mk_rc 0 "Success") "None"
               (mk_self "broker" 1883 "user" "secret" "disc" "home" 300 0)))
  = [mk_message "home/status" "online" 0 true].
Proof.
  split; [reflexivity|].
  exact (proj1 (proj2
    (on_connect_success_publishes_online
       (mk_self "broker" 1883 "user" "secret" "disc" "home" 300 0)
       "client" "None" "{}" (mk_rc 0 "Success") "None" eq_refl))).
Defined.

(** ** The command line *)

(** C6.  With [--version] set the program prints its version string and
    exits with code 0.  This is all it does, whatever the other options
    hold: no logging level is set, no agent is constructed, no last will
    is registered and no connection is attempted; and nothing follows. *)
Theorem version_prints_and_exits :
  forall (o : options) (schedule : list action),
    opt_version o = Some true ->
    version_callback (opt_version o)
    = ([Print "My Service Start Version: 0.1.0"], TyperExit 0)
    /\ typer_run o = Dead 0 [Print "My Service Start Version: 0.1.0"]
    /\ exec schedule (typer_run o)
       = Dead 0 [Print "My Service Start Version: 0.1.0"].
Proof.
  intros o schedule H. unfold typer_run. rewrite H. cbn.
  repeat split. apply exec_dead.
Qed.

Lemma version_prints_and_exits_witness :
  Some true = Some true /\
  typer_run (mk_options "nowhere" 0 "nobody" "" "disc//" "home//" (-1)
                        true (Some true))
  = Dead 0 [Print "My Service Start Version: 0.1.0"].
Proof.
  split; [reflexivity|].
  exact (proj1 (proj2
    (version_prints_and_exits
       (mk_options "nowhere" 0 "nobody" "" "disc//" "home//" (-1)
                   true (Some true))
       [] eq_refl))).
Defined.

(** ** The loop of [run] *)

(** C7.  A pass through the loop first compares
    [threading.active_count()] with 1.  If it is 1, the pass logs an error
    and exits with status 1, and publishes nothing.  Otherwise it calls
    [regular_update], which publishes the next update, and then sleeps for
    [update_interval] seconds.  In the running process this is what every
    pass does, with one thread counted when the network thread has ended
    and two while it runs. *)
Theorem run_iteration_checks_threads_first :
  forall (self : MqttClient) (active_count : Z) (t : list event),
    run_iteration active_count self
    = (if active_count =? 1
       then mk_result
              [ Log ERROR
                  "Only one thread running, should be at least two -> exiting." ]
              self
              (SystemExit 1)
       else mk_result
              ([Log DEBUG "in loop: before sleep"]
               ++ events (regular_update self)
               ++ [ Sleep (update_interval self);
                    Log DEBUG "in loop: after sleep" ])
              (final (regular_update self))
              (Returned tt))
    /\ publishes (events (run_iteration 1 self)) = []
    /\ step Iterate (Live self false t)
       = Dead 1 (t ++ events (run_iteration 1 self))
    /\ step Iterate (Live self true t)
       = Live (set_counter self (counter self + 1)) true
              (t ++ [ Log DEBUG "in loop: before sleep";
                      Log INFO "--> regular_update";
                      Publish (mk_message (topic_prefix self ++ "/status")
                                 ("update:" ++ Py.str_int (counter self + 1))
                                 0 true);
                      Sleep (update_interval self);
                      Log DEBUG "in loop: after sleep" ]).
Proof.
  intros self active_count t. repeat split.
  destruct (Z.eqb_spec active_count 1) as [->|H].
  - apply run_iteration_alone.
  - rewrite (run_iteration_update self active_count H). reflexivity.
Qed.

(** ** The last will *)

(** C8.  The constructor registers the last will: ["offline"] on
    ["{topic_prefix}/status"], QoS 0, retained, where [topic_prefix] is
    the prefix it has just stored (for a configured prefix [q ++ "/"]
    that is [q]).  The constructor opens no connection; in [main] the
    connection is opened by [run], after the constructor has returned. *)
Theorem init_registers_last_will :
  forall (host : string) (port : Z) (user password d p : string)
         (interval : Z) (o : options),
    let r := __init__ host port user password d p interval in
    events r
    = [ SignalRegistered;
        ClientCreated;
        UsernamePwSet user password;
        WillSet (mk_message (topic_prefix (final r) ++ "/status") "offline"
                            0 true) ]
    /\ wills (events (__init__ host port user password d (p ++ "/") interval))
       = [mk_message (p ++ "/status") "offline" 0 true]
    /\ trace_of (main o)
       = ((SetLevel (if opt_debug o then DEBUG else INFO)
           :: events (construct o))
          ++ events (run_prologue (final (construct o))))%list
    /\ exists before afterwards : list event,
         events (run_prologue (final (construct o)))
         = (before
            ++ ClientConnect (opt_mqtt_host o) (opt_mqtt_port o) 60
            :: afterwards)%list
         /\ wills before = [].
Proof.
  intros host port user password d p interval o r. repeat split.
  - cbn [__init__ events wills].
    rewrite endswith_append, drop_last_append_char. reflexivity.
  - eexists (_ :: _ :: _ :: _ :: _ :: _ :: []), _. split; reflexivity.
Qed.

(** ** The order of ["online"] and the first update *)

Section OnlineFirst.

Lemma trace_grows_step (a : action) (p : process) :
  exists d : list event, trace_of (step a p) = (trace_of p ++ d)%list.
Proof.
  destruct p as [self net t | code t].
  - destruct a as [|client userdata flags rc properties| |]; cbn [step].
    + unfold in_main_thread.
      destruct (out (run_iteration _ self)); eexists; reflexivity.
    + destruct net; [|exists []; cbn; now rewrite app_nil_r].
      unfold in_network_thread.
      destruct (out (on_connect _ _ _ _ _ self)); eexists; reflexivity.
    + exists []. cbn. now rewrite app_nil_r.
    + eexists. reflexivity.
  - exists []. cbn. now rewrite app_nil_r.
Qed.

Lemma trace_grows (schedule : list action) (p : process) :
  exists d : list event,
    trace_of (exec schedule p) = (trace_of p ++ d)%list.
Proof.
  revert p. induction schedule as [|a s IH]; intros p.
  - exists []. cbn. now rewrite app_nil_r.
  - rewrite exec_cons. destruct (IH (step a p)) as [d2 H2].
    destruct (trace_grows_step a p) as [d1 H1].
    exists (d1 ++ d2)%list. now rewrite H2, H1, app_assoc.
Qed.

Lemma online_before_updates_without_updates (ms : list message) :
  filter is_update ms = [] -> online_before_updates ms = true.
Proof.
  induction ms as [|m ms IH]; cbn [filter online_before_updates];
    [reflexivity|].
  destruct (is_update m); [intros H; discriminate H|].
  intros H. destruct (String.eqb (payload m) "online"); auto.
Qed.

Lemma online_before_updates_decided (ms rest : list message) (m : message) :
  filter is_update ms = [] ->
  payload m = "online" ->
  online_before_updates (ms ++ m :: rest) = true.
Proof.
  intros Hms Hm. induction ms as [|m' ms IH];
    cbn [app online_before_updates].
  - unfold is_update. rewrite Hm. reflexivity.
  - cbn [filter] in Hms. destruct (is_update m'); [discriminate Hms|].
    destruct (String.eqb (payload m') "online"); auto.
Qed.

(** Only a pass of the loop publishes an update. *)
Lemma step_other_than_iterate (a : action) (p : process) :
  a <> Iterate ->
  updates (trace_of p) = [] -> updates (trace_of (step a p)) = [].
Proof.
  intros Ha Hu. destruct p as [self net t | code t]; [|exact Hu].
  cbn [trace_of] in Hu. step_cases a net; cbn [trace_of];
    rewrite ?updates_app, ?Hu; try reflexivity; try exact Hu;
    try (unfold updates at 1; rewrite Hpub; reflexivity).
  all: now elim Ha.
Qed.

Lemma exec_without_iterate (pre : list action) (p : process) :
  Forall (fun a => a <> Iterate) pre ->
  updates (trace_of p) = [] -> updates (trace_of (exec pre p)) = [].
Proof.
  intros H. revert p. induction H as [|a pre Ha _ IH]; intros p Hu.
  - exact Hu.
  - rewrite exec_cons. apply IH, step_other_than_iterate; assumption.
Qed.

(** Without the network thread, no update is published any more. *)
Lemma step_without_network_thread (a : action) (p : process) :
  network_thread_alive p = false ->
  updates (trace_of p) = [] ->
  network_thread_alive (step a p) = false /\
  updates (trace_of (step a p)) = [].
Proof.
  intros Hn Hu. destruct p as [self net t | code t]; [|now split].
  cbn in Hn. subst net. cbn [trace_of] in Hu.
  destruct a as [|client userdata flags rc properties| |].
  - rewrite step_iterate_alone. cbn [trace_of network_thread_alive].
    now rewrite updates_app, Hu.
  - rewrite step_connack_no_thread. now split.
  - now split.
  - rewrite step_sigint, signal_handler_run.
    cbn [trace_of network_thread_alive events].
    now rewrite updates_app, Hu.
Qed.

Lemma exec_without_network_thread (schedule : list action) (p : process) :
  network_thread_alive p = false ->
  updates (trace_of p) = [] ->
  updates (trace_of (exec schedule p)) = [].
Proof.
  revert p. induction schedule as [|a s IH]; intros p Hn Hu; [exact Hu|].
  rewrite exec_cons.
  destruct (step_without_network_thread a p Hn Hu) as [Hn' Hu'].
  now apply IH.
Qed.

Lemma typer_run_no_update (o : options) :
  updates (trace_of (typer_run o)) = [].
Proof.
  unfold typer_run. destruct (opt_version o) as [[|]|]; reflexivity.
Qed.

End OnlineFirst.

(** C9, as the code has it.  A successful connect callback publishes
    ["online"], retained and QoS 0, to ["{topic_prefix}/status"] exactly
    once.  In every interleaving in which that callback runs before the
    first pass of the loop, no periodic update is published before an
    ["online"].  ([run] does not wait for the callback before it enters
    the loop, so the other interleavings are not covered.) *)
Theorem online_first_when_callback_precedes_loop :
  forall (o : options) (pre post : list action)
         (client userdata flags : string) (rc : ReasonCode)
         (properties : string),
    value rc = 0 ->
    Forall (fun a => a <> Iterate) pre ->
    (forall self : MqttClient,
       publishes (events (on_connect client userdata flags rc properties self))
       = [mk_message (topic_prefix self ++ "/status") "online" 0 true])
    /\ online_before_updates
         (publishes
            (trace_of
               (exec (pre ++ Connack client userdata flags rc properties
                          :: post)
                     (typer_run o))))
       = true.
Proof.
  intros o pre post client userdata flags rc properties Hrc Hpre.
  split.
  { intros self.
    now rewrite (on_connect_success self client userdata flags rc
                   properties Hrc). }
  rewrite exec_app, exec_cons.
  pose proof (exec_without_iterate pre (typer_run o) Hpre
                (typer_run_no_update o)) as Hquiet.
  destruct (exec pre (typer_run o)) as [self [|] t | code t].
  - destruct (step_connack_ok self t client userdata flags rc properties Hrc)
      as [Hstep Hpub].
    rewrite Hstep.
    destruct (trace_grows post
                (Live self true
                   (t ++ events (on_connect client userdata flags rc
                                   properties self))))
      as [d Hd].
    rewrite Hd. cbn [trace_of].
    rewrite !publishes_app, Hpub, <- app_assoc.
    apply online_before_updates_decided; [exact Hquiet | reflexivity].
  - rewrite step_connack_no_thread.
    apply online_before_updates_without_updates.
    now apply exec_without_network_thread.
  - apply online_before_updates_without_updates.
    now apply exec_without_network_thread.
Qed.

Lemma online_first_when_callback_precedes_loop_witness :
  0 = 0 /\
  Forall (fun a => a <> Iterate)
         [Connack "client" "None" "{}" (mk_rc 0 "Success") "None"] /\
  online_before_updates
    (publishes
       (trace_of
          (exec ([Connack "client" "None" "{}" (mk_rc 0 "Success") "None"]
                 ++ Connack "client" "None" "{}" (mk_rc 0 "Success") "None"
                 :: [Iterate; Iterate])
                (typer_run default_options))))
  = true.
Proof.
  assert (H : Forall (fun a => a <> Iterate)
                [Connack "client" "None" "{}" (mk_rc 0 "Success") "None"]).
  { constructor; [discriminate | constructor]. }
  split; [reflexivity | split; [exact H|]].
  exact (proj2
    (online_first_when_callback_precedes_loop default_options
       [Connack "client" "None" "{}" (mk_rc 0 "Success") "None"]
       [Iterate; Iterate]
       "client" "None" "{}" (mk_rc 0 "Success") "None" eq_refl H)).
Defined.

(** C9 as specified fails: in the interleaving where the loop makes its
    first pass before the connect callback runs, ["update:1"] is
    published before ["online"]. *)
Lemma first_update_can_precede_online :
  publishes
    (trace_of
       (exec [Iterate;
              Connack "client" "None" "{}" (mk_rc 0 "Success") "None"]
             (typer_run default_options)))
  = [ mk_message "home/nodes/sensor/foobar/status" "update:1" 0 true;
      mk_message "home/nodes/sensor/foobar/status" "online" 0 true ]
  /\ online_before_updates
       (publishes
          (trace_of
             (exec [Iterate;
                    Connack "client" "None" "{}" (mk_rc 0 "Success") "None"]
                   (typer_run default_options))))
     <> true.
Proof. split; [reflexivity | discriminate]. Qed.

(** ** The topic of every message *)

Section StatusTopic.

Lemma messages_app_Forall (P : message -> Prop) (t1 t2 : list event) :
  Forall P (messages (t1 ++ t2)) <->
  Forall P (messages t1) /\ Forall P (messages t2).
Proof.
  unfold messages. rewrite wills_app, publishes_app, !Forall_app. tauto.
Qed.

Variable prefix : string.

Let on_topic (p : process) : Prop :=
  Forall (status_message prefix) (messages (trace_of p)) /\
  match p with
  | Live self _ _ => topic_prefix self = prefix
  | Dead _ _ => True
  end.

Lemma on_topic_step (a : action) (p : process) :
  on_topic p -> on_topic (step a p).
Proof.
  destruct p as [self net t | code t]; [|exact (fun H => H)].
  intros [Ht Hp]. cbn [trace_of] in Ht. unfold on_topic.
  step_cases a net; cbn [trace_of];
    rewrite ?messages_app_Forall;
    rewrite ?(on_connect_success _ _ _ _ _ _ E),
            ?(on_connect_failure _ _ _ _ _ _ E);
    cbn [events]; try (split; [|assumption || exact I]);
    try (split; [exact Ht|]); try exact Ht.
  all: unfold messages; cbn [wills publishes app];
    repeat (apply Forall_cons || apply Forall_nil);
    (split; [cbn; now rewrite ?Hp | cbn; auto 6]).
Qed.

Lemma on_topic_exec (schedule : list action) (p : process) :
  on_topic p -> on_topic (exec schedule p).
Proof.
  revert p. induction schedule as [|a s IH]; intros p H; [exact H|].
  rewrite exec_cons. apply IH, on_topic_step, H.
Qed.

Lemma messages_on_topic (schedule : list action) (p : process) :
  Forall (status_message prefix) (messages (trace_of p)) ->
  match p with
  | Live self _ _ => topic_prefix self = prefix
  | Dead _ _ => True
  end ->
  Forall (status_message prefix) (messages (trace_of (exec schedule p))).
Proof. intros H1 H2. apply (on_topic_exec schedule p). now split. Qed.

End StatusTopic.

Section DiscoveryPrefixUnused.

Lemma same_messages_step (a : action) (p1 p2 : process) :
  same_messages p1 p2 -> same_messages (step a p1) (step a p2).
Proof.
  destruct p1 as [s1 n1 t1 | c1 t1], p2 as [s2 n2 t2 | c2 t2];
    intros (Hw & Hpub & H); try contradiction; [|now repeat split].
  destruct H as (<- & Hp & Hc). cbn [trace_of] in Hw, Hpub.
  destruct a as [|client userdata flags rc properties| |].
  - destruct n1.
    + rewrite !step_iterate_live. unfold same_messages. cbn [trace_of].
      rewrite !wills_app, !publishes_app, Hw, Hpub, Hp, Hc.
      repeat split; cbn; congruence.
    + rewrite !step_iterate_alone. unfold same_messages. cbn [trace_of].
      rewrite !wills_app, !publishes_app, Hw, Hpub. now repeat split.
  - destruct n1; [|rewrite !step_connack_no_thread; now repeat split].
    destruct (Z.eq_dec (value rc) 0) as [E|E].
    + rewrite (proj1 (step_connack_ok s1 t1 _ _ _ _ _ E)),
              (proj1 (step_connack_ok s2 t2 _ _ _ _ _ E)),
              !(on_connect_success _ _ _ _ _ _ E).
      unfold same_messages. cbn [trace_of events].
      rewrite !wills_app, !publishes_app, Hw, Hpub, Hp. now repeat split.
    + rewrite (proj1 (step_connack_failed s1 t1 _ _ _ _ _ E)),
              (proj1 (step_connack_failed s2 t2 _ _ _ _ _ E)),
              !(on_connect_failure _ _ _ _ _ _ E).
      unfold same_messages. cbn [trace_of events].
      rewrite !wills_app, !publishes_app, Hw, Hpub. now repeat split.
  - now repeat split.
  - rewrite !step_sigint, !signal_handler_run. unfold same_messages.
    cbn [trace_of events].
    rewrite !wills_app, !publishes_app, Hw, Hpub, Hp. now repeat split.
Qed.

Lemma same_messages_exec (schedule : list action) (p1 p2 : process) :
  same_messages p1 p2 ->
  same_messages (exec schedule p1) (exec schedule p2).
Proof.
  revert p1 p2. induction schedule as [|a s IH]; intros p1 p2 H;
    [exact H|].
  rewrite !exec_cons. apply IH, same_messages_step, H.
Qed.

Lemma same_messages_typer_run (o : options) (d : string) :
  same_messages (typer_run (with_discovery_topic_prefix o d)) (typer_run o).
Proof.
  unfold typer_run. cbn [with_discovery_topic_prefix opt_version].
  destruct (opt_version o) as [[|]|]; cbn; now repeat split.
Qed.

End DiscoveryPrefixUnused.

(** C10.  In every run of the program, every message handed to the broker
    client, as last will or to be published, is on the single topic
    ["{topic_prefix}/status"] and is the last will ["offline"], an
    ["online"], an ["update:N"] or the ["goodbye"].  The discovery topic
    prefix is stored but reaches none of them: with any other
    [--discovery-topic-prefix] the same messages are sent.  The remaining
    operations, [publish_discovery], [remove_discovery] and
    [on_disconnect], send no message at all. *)
Theorem every_message_on_status_topic :
  forall (o : options) (schedule : list action) (d : string)
         (self : MqttClient) (client userdata rc : string),
    Forall (status_message (topic_prefix (final (construct o))))
           (messages (trace_of (exec schedule (typer_run o))))
    /\ messages
         (trace_of
            (exec schedule (typer_run (with_discovery_topic_prefix o d))))
       = messages (trace_of (exec schedule (typer_run o)))
    /\ messages (events (publish_discovery self)) = []
    /\ messages (events (remove_discovery self)) = []
    /\ messages (events (on_disconnect client userdata rc self)) = [].
Proof.
  intros o schedule d self client userdata rc.
  split; [|split; [|repeat split]].
  - apply messages_on_topic.
    + unfold typer_run. destruct (opt_version o) as [[|]|]; cbn;
        repeat constructor.
    + unfold typer_run. destruct (opt_version o) as [[|]|]; cbn; trivial.
  - destruct (same_messages_exec schedule _ _ (same_messages_typer_run o d))
      as (Hw & Hp & _).
    unfold messages. now rewrite Hw, Hp.
Qed.

(** * Further properties of the script *)

(** ** How the constructor normalises a prefix *)

Section PrefixNormalisation.

Lemma substring_whole (s : string) : substring 0 (String.length s) s = s.
Proof. induction s as [|c s IH]; simpl; [reflexivity | now rewrite IH]. Qed.

Lemma substring_split (n : nat) (s : string) :
  (n <= String.length s)%nat ->
  substring 0 n s ++ substring n (String.length s - n) s = s.
Proof.
  revert s. induction n as [|n IH]; intros s H.
  - rewrite Nat.sub_0_r, substring_whole. now destruct s.
  - destruct s as [|c s]; simpl in H; [lia|].
    simpl. rewrite IH by lia. reflexivity.
Qed.

(** [s.endswith(suffix)] holds exactly when [s] is something followed by
    [suffix]. *)
Lemma endswith_inv (s suffix : string) :
  Py.endswith s suffix = true ->
  s = substring 0 (String.length s - String.length suffix) s ++ suffix.
Proof.
  unfold Py.endswith. intros H. apply andb_true_iff in H as [Hl He].
  apply Nat.leb_le in Hl. apply String.eqb_eq in He.
  rewrite <- He at 2.
  set (n := (String.length s - String.length suffix)%nat).
  replace (String.length suffix) with (String.length s - n)%nat
    by (unfold n; lia).
  symmetry. apply substring_split. unfold n. lia.
Qed.

Lemma endswith_slash_inv (p : string) :
  Py.endswith p "/" = true -> p = Py.drop_last p ++ "/".
Proof. intros H. exact (endswith_inv p "/" H). Qed.

Lemma append_assoc (s1 s2 s3 : string) :
  (s1 ++ s2) ++ s3 = s1 ++ (s2 ++ s3).
Proof. induction s1 as [|c s1 IH]; simpl; [reflexivity | now rewrite IH]. Qed.

End PrefixNormalisation.

Section StoredPrefix.

Lemma endswith_iff (s suffix : string) :
  Py.endswith s suffix = true <-> exists q, s = q ++ suffix.
Proof.
  split.
  - intros H. eexists. exact (endswith_inv s suffix H).
  - intros [q ->]. apply endswith_append.
Qed.

Lemma append_char_inj (s1 s2 : string) (c : ascii) :
  s1 ++ String c "" = s2 ++ String c "" -> s1 = s2.
Proof.
  intros H. apply (f_equal Py.drop_last) in H.
  now rewrite !drop_last_append_char in H.
Qed.

Lemma endswith_two_slashes (q : string) :
  Py.endswith (q ++ "/") "//" = Py.endswith q "/".
Proof.
  apply Bool.eq_true_iff_eq. rewrite !endswith_iff. split.
  - intros [r H]. exists r.
    change "//" with ("/" ++ "/") in H. rewrite <- append_assoc in H.
    exact (append_char_inj _ _ _ H).
  - intros [r ->]. exists r. now rewrite append_assoc.
Qed.

Lemma endswith_two_slashes_one (p : string) :
  Py.endswith p "//" = true -> Py.endswith p "/" = true.
Proof.
  rewrite !endswith_iff. intros [r ->]. exists (r ++ "/").
  now rewrite append_assoc.
Qed.

(** What [__init__] stores for a configured prefix [p] (lines 65-68 and
    71-74). *)
Lemma stored_prefix_cases (p : string) :
  let stored := if Py.endswith p "/" then Py.drop_last p else p in
  (if Py.endswith p "/" then p = stored ++ "/" else p = stored) /\
  Py.endswith stored "/" = Py.endswith p "//".
Proof.
  cbv zeta. destruct (Py.endswith p "/") eqn:E.
  - pose proof (endswith_slash_inv p E) as Hp. split; [exact Hp|].
    rewrite Hp at 2. symmetry. apply endswith_two_slashes.
  - split; [reflexivity|]. rewrite E. symmetry.
    destruct (Py.endswith p "//") eqn:E2; [|reflexivity].
    apply endswith_two_slashes_one in E2. congruence.
Qed.

End StoredPrefix.

(** X1.  The constructor changes a configured prefix by at most its last
    character: when the prefix ends with ['/'], the stored one followed by
    ["/"] is the configured one, and otherwise the prefix is stored as it
    is.  This holds for the topic prefix and for the discovery prefix. *)
Theorem init_removes_at_most_one_slash :
  forall (host : string) (port : Z) (user password d p : string)
         (interval : Z),
    let self := final (__init__ host port user password d p interval) in
    (if Py.endswith p "/"
     then p = topic_prefix self ++ "/"
     else p = topic_prefix self)
    /\ (if Py.endswith d "/"
        then d = discovery_topic_prefix self ++ "/"
        else d = discovery_topic_prefix self).
Proof.
  intros host port user password d p interval. cbn.
  split; [exact (proj1 (stored_prefix_cases p))
         | exact (proj1 (stored_prefix_cases d))].
Qed.

(** X2.  A stored prefix ends with ['/'] exactly when the configured one
    ends with ["//"]: the constructor keeps its promise of no trailing
    slash for every prefix but those with two or more of them. *)
Theorem stored_prefix_ends_with_slash_iff :
  forall (host : string) (port : Z) (user password d p : string)
         (interval : Z),
    let self := final (__init__ host port user password d p interval) in
    Py.endswith (topic_prefix self) "/" = Py.endswith p "//"
    /\ Py.endswith (discovery_topic_prefix self) "/" = Py.endswith d "//".
Proof.
  intros host port user password d p interval. cbn.
  split; [exact (proj2 (stored_prefix_cases p))
         | exact (proj2 (stored_prefix_cases d))].
Qed.

(** ** Runs of the program *)

Section Runs.

Lemma sleeps_app (t1 t2 : list event) :
  sleeps (t1 ++ t2) = (sleeps t1 ++ sleeps t2)%list.
Proof.
  induction t1 as [|e t1 IH]; simpl; [reflexivity|].
  destruct e; simpl; now rewrite ?IH.
Qed.

Lemma connects_app (t1 t2 : list event) :
  connects (t1 ++ t2) = (connects t1 ++ connects t2)%list.
Proof.
  induction t1 as [|e t1 IH]; simpl; [reflexivity|].
  destruct e; simpl; now rewrite ?IH.
Qed.

Lemma errors_app (t1 t2 : list event) :
  errors (t1 ++ t2) = (errors t1 ++ errors t2)%list.
Proof.
  induction t1 as [|e t1 IH]; simpl; [reflexivity|].
  destruct e as [[| |] msg| | | | | | | | | | | |]; simpl; now rewrite ?IH.
Qed.

(** A run either stops at [--version] or enters the loop with the object
    the constructor built. *)
Lemma typer_run_cases (o : options) :
  (opt_version o = Some true /\
   typer_run o = Dead 0 [Print "My Service Start Version: 0.1.0"])
  \/ (opt_version o <> Some true /\
      typer_run o = Live (final (construct o)) true (startup o)).
Proof.
  unfold typer_run.
  destruct (opt_version o) as [[|]|]; [left | right | right];
    (split; [reflexivity || discriminate | reflexivity]).
Qed.

(** A property of the start that every action preserves holds
    throughout every run. *)
Lemma run_invariant (P : process -> Prop) (p : process) :
  P p ->
  (forall a q, P q -> P (step a q)) ->
  forall schedule, P (exec schedule p).
Proof.
  intros H0 Hstep schedule. revert p H0.
  induction schedule as [|a s IH]; intros p H0; [exact H0|].
  rewrite exec_cons. apply IH, Hstep, H0.
Qed.

End Runs.

(** ** The agent object during a run *)

Section LiveObject.

Variable o : options.

Let built (p : process) : Prop :=
  match p with
  | Live self _ t =>
      self = set_counter (final (construct o))
                         (Z.of_nat (List.length (updates t)))
  | Dead _ _ => True
  end.

Lemma built_step (a : action) (p : process) : built p -> built (step a p).
Proof.
  destruct p as [self net t | code t]; [|exact (fun H => H)].
  intros H. unfold built in H.
  step_cases a net; unfold built; rewrite ?updates_app, ?length_app;
    try exact I.
  - change (updates (_ :: _))
      with [update_message (topic_prefix self) (counter self + 1)].
    cbn [List.length]. subst self.
    unfold set_counter;
      cbn [mqtt_host mqtt_port mqtt_user mqtt_password
           discovery_topic_prefix topic_prefix update_interval counter].
    f_equal. lia.
  - unfold updates at 2. rewrite Hpub.
    change (filter is_update [_]) with (@nil message).
    cbn [List.length]. now rewrite Nat.add_0_r.
  - unfold updates at 2. rewrite Hpub.
    cbn [filter List.length]. now rewrite Nat.add_0_r.
  - exact H.
  - exact H.
Qed.

Lemma built_typer_run : built (typer_run o).
Proof.
  destruct (typer_run_cases o) as [[_ ->] | [_ ->]]; [exact I|].
  reflexivity.
Qed.

End LiveObject.

(** X3.  While the program runs, the agent object is the one the
    constructor built, with nothing changed but the counter, and the
    counter is the number of periodic updates published so far. *)
Theorem live_object_is_constructed_object :
  forall (o : options) (schedule : list action) (self : MqttClient)
         (net : bool) (t : list event),
    exec schedule (typer_run o) = Live self net t ->
    self = set_counter (final (construct o))
                       (Z.of_nat (List.length (updates t))).
Proof.
  intros o schedule self net t H.
  pose proof (run_invariant _ (typer_run o) (built_typer_run o)
                (built_step o) schedule) as Hb.
  rewrite H in Hb. exact Hb.
Qed.

Lemma live_object_is_constructed_object_witness :
  (exists t : list event,
     exec [Iterate;
           Connack "client" "None" "{}" (mk_rc 0 "Success") "None";
           Iterate]
          (typer_run default_options)
     = Live (mk_self "homeassistant.local" 1883 "mqttuser" "changeme"
                     "homeassistant/sensor/foobar"
                     "home/nodes/sensor/foobar" 300 2)
            true t)
  /\ mk_self "homeassistant.local" 1883 "mqttuser" "changeme"
             "homeassistant/sensor/foobar" "home/nodes/sensor/foobar" 300 2
     = set_counter (final (construct default_options)) 2.
Proof.
  assert (H : exec [Iterate;
                    Connack "client" "None" "{}" (mk_rc 0 "Success") "None";
                    Iterate]
                   (typer_run default_options)
              = Live (mk_self "homeassistant.local" 1883 "mqttuser"
                              "changeme" "homeassistant/sensor/foobar"
                              "home/nodes/sensor/foobar" 300 2)
                     true
                     (trace_of
                        (exec [Iterate;
                               Connack "client" "None" "{}"
                                       (mk_rc 0 "Success") "None";
                               Iterate]
                              (typer_run default_options)))).
  { vm_compute. reflexivity. }
  split; [eexists; exact H|].
  pose proof (live_object_is_constructed_object default_options _ _ _ _ H)
    as K.
  vm_compute in K. vm_compute. exact K.
Defined.

(** ** What the loop and the callbacks never touch *)

Section SetUpOnce.

(** No action registers a will or opens a connection. *)
Lemma step_adds (a : action) (p : process) :
  exists d : list event,
    trace_of (step a p) = (trace_of p ++ d)%list /\
    wills d = [] /\ connects d = [].
Proof.
  destruct p as [self net t | code t];
    [|exists []; cbn; now rewrite app_nil_r].
  step_cases a net; cbn [trace_of];
    rewrite ?(on_connect_success _ _ _ _ _ _ E),
            ?(on_connect_failure _ _ _ _ _ _ E);
    cbn [events];
    try (eexists; split; [reflexivity | split; reflexivity]);
    exists []; now rewrite app_nil_r.
Qed.

Lemma exec_keeps_setup (schedule : list action) (p : process) :
  wills (trace_of (exec schedule p)) = wills (trace_of p) /\
  connects (trace_of (exec schedule p)) = connects (trace_of p).
Proof.
  revert p. induction schedule as [|a s IH]; intros p; [now split|].
  rewrite exec_cons. destruct (IH (step a p)) as [Hw Hc].
  destruct (step_adds a p) as (d & Hd & Hwd & Hcd).
  rewrite Hw, Hc, Hd, wills_app, connects_app, Hwd, Hcd, !app_nil_r.
  now split.
Qed.

End SetUpOnce.

(** X4.  In every run that gets past [--version], the last will is
    registered exactly once: at any moment the wills handed to the client
    are the single ["offline"] message of the constructor, QoS 0 and
    retained; the loop, the callbacks and the signal handler never
    replace or clear it. *)
Theorem last_will_registered_once :
  forall (o : options) (schedule : list action),
    wills (trace_of (exec schedule (typer_run o)))
    = match opt_version o with
      | Some true => []
      | _ => [mk_message (topic_prefix (final (construct o)) ++ "/status")
                         "offline" 0 true]
      end.
Proof.
  intros o schedule.
  rewrite (proj1 (exec_keeps_setup schedule (typer_run o))).
  unfold typer_run. destruct (opt_version o) as [[|]|]; reflexivity.
Qed.

(** X5.  In every run that gets past [--version], [client.connect] is
    called exactly once, with the configured host and port and a
    keepalive of 60; whatever happens later, the script itself never
    connects again. *)
Theorem connects_exactly_once :
  forall (o : options) (schedule : list action),
    connects (trace_of (exec schedule (typer_run o)))
    = match opt_version o with
      | Some true => []
      | _ => [(opt_mqtt_host o, opt_mqtt_port o, 60)]
      end.
Proof.
  intros o schedule.
  rewrite (proj2 (exec_keeps_setup schedule (typer_run o))).
  unfold typer_run. destruct (opt_version o) as [[|]|]; reflexivity.
Qed.

(** ** Sleeping *)

Section Sleeping.

Variable interval : Z.

Let paced (p : process) : Prop :=
  match p with
  | Live self _ _ => update_interval self = interval
  | Dead _ _ => True
  end /\
  sleeps (trace_of p)
  = repeat interval (List.length (updates (trace_of p))).

Lemma paced_step (a : action) (p : process) : paced p -> paced (step a p).
Proof.
  destruct p as [self net t | code t]; [|exact (fun H => H)].
  intros [Hi Hs]. cbn [trace_of] in Hs.
  step_cases a net; unfold paced; cbn [trace_of];
    rewrite ?(on_connect_success _ _ _ _ _ _ E),
            ?(on_connect_failure _ _ _ _ _ _ E);
    cbn [events];
    rewrite ?sleeps_app, ?updates_app, ?length_app, ?repeat_app, <- ?Hs;
    try (split; [exact Hi || exact I | reflexivity]).
  split; [exact Hi|]. cbn [sleeps]. now rewrite Hi.
Qed.

End Sleeping.

(** X6.  The loop sleeps once after every periodic update and never
    otherwise, each time for the configured [update_interval]: in every
    run the durations handed to [time.sleep] are as many copies of the
    interval as updates have been published. *)
Theorem sleeps_once_per_update :
  forall (o : options) (schedule : list action),
    sleeps (trace_of (exec schedule (typer_run o)))
    = repeat (opt_update_interval o)
             (List.length (updates (trace_of (exec schedule (typer_run o))))).
Proof.
  intros o schedule.
  refine (proj2 (run_invariant _ (typer_run o) _
                   (paced_step (opt_update_interval o)) schedule)).
  destruct (typer_run_cases o) as [[_ ->] | [_ ->]]; split; reflexivity.
Qed.

(** ** Quality of service *)

Section Retained.

Let retained (p : process) : Prop :=
  Forall (fun m => qos m = 0 /\ retain m = true) (messages (trace_of p)).

Lemma retained_step (a : action) (p : process) :
  retained p -> retained (step a p).
Proof.
  destruct p as [self net t | code t]; [|exact (fun H => H)].
  unfold retained. cbn [trace_of]. intros Ht.
  step_cases a net; cbn [trace_of];
    rewrite ?messages_app_Forall;
    rewrite ?(on_connect_success _ _ _ _ _ _ E),
            ?(on_connect_failure _ _ _ _ _ _ E);
    cbn [events]; try (split; [exact Ht|]); try exact Ht.
  all: unfold messages; cbn [wills publishes app];
    repeat (apply Forall_cons || apply Forall_nil); now split.
Qed.

End Retained.

(** X7.  Every message the program hands to the client in any run, the
    last will included, has QoS 0 and is retained: the script never sends
    an unretained message and never asks for a delivery guarantee. *)
Theorem every_message_retained_at_qos_0 :
  forall (o : options) (schedule : list action),
    Forall (fun m => qos m = 0 /\ retain m = true)
           (messages (trace_of (exec schedule (typer_run o)))).
Proof.
  intros o schedule.
  refine (run_invariant _ (typer_run o) _ retained_step schedule).
  destruct (typer_run_cases o) as [[_ ->] | [_ ->]];
    unfold messages; cbn; repeat constructor.
Qed.

(** ** How a run ends *)

Section Endings.

Variable o : options.




End Endings.



(** ** The payloads of the updates *)

Section Payloads.

(** The decimal rendering of an integer reads back as that integer. *)
Lemma read_str_int (z : Z) : read_int (Py.str_int z) = Some z.
Proof.
  unfold read_int, Py.str_int. rewrite NilZero.isi.
  - cbn [option_map]. now rewrite DecimalZ.of_to.
  - destruct z as [|p|p]; cbn [Z.to_int]; intros H;
      [discriminate H | injection H as H | discriminate H].
    now apply (Unsigned.to_uint_nonnil p).
  - destruct z as [|p|p]; cbn [Z.to_int]; intros H;
      [discriminate H | discriminate H | injection H as H].
    now apply (Unsigned.to_uint_nonnil p).
Qed.

Lemma str_int_injective (x y : Z) : Py.str_int x = Py.str_int y -> x = y.
Proof.
  intros H. apply (f_equal read_int) in H.
  rewrite !read_str_int in H. now injection H.
Qed.

Lemma update_payload_injective (prefix : string) :
  Injective (fun k : nat => payload (update_message prefix (Z.of_nat k))).
Proof.
  intros x y H. cbn in H. injection H as H.
  apply str_int_injective in H. lia.
Qed.

End Payloads.

(** X9.  No two periodic updates of a run carry the same payload: the
    numbers rendered into ["update:N"] are all different, so a subscriber
    can tell every update from every other. *)
Theorem update_payloads_distinct :
  forall (o : options) (schedule : list action),
    NoDup (map payload
               (updates (trace_of (exec schedule (typer_run o))))).
Proof.
  intros o schedule.
  destruct (numbered_exec _ schedule _ (numbered_typer_run o))
    as (n & Hu & _).
  rewrite Hu, map_map.
  apply Injective_map_NoDup; [apply update_payload_injective|].
  apply seq_NoDup.
Qed.

(** ** Errors in the log *)

Section ErrorLines.

Let quiet (p : process) : Prop :=
  match p with
  | Live _ true t => errors t = []
  | _ => True
  end.

Lemma quiet_step (a : action) (p : process) : quiet p -> quiet (step a p).
Proof.
  destruct p as [self net t | code t]; [|exact (fun H => H)].
  intros H. unfold quiet in H.
  step_cases a net; unfold quiet; try exact I;
    rewrite ?(on_connect_success _ _ _ _ _ _ E); cbn [events];
    rewrite ?errors_app, ?H; reflexivity.
Qed.

End ErrorLines.

(** X10.  As long as the process is alive and its network thread runs,
    nothing has been logged at ERROR level: an error line appears only
    when a connect failed or the thread check fired. *)
Theorem no_error_logged_while_healthy :
  forall (o : options) (schedule : list action) (self : MqttClient)
         (t : list event),
    exec schedule (typer_run o) = Live self true t ->
    errors t = [].
Proof.
  intros o schedule self t H.
  assert (H0 : match typer_run o with
               | Live _ true t0 => errors t0 = []
               | _ => True
               end).
  { destruct (typer_run_cases o) as [[_ ->] | [_ ->]]; [exact I|].
    reflexivity. }
  pose proof (run_invariant _ (typer_run o) H0 quiet_step schedule) as Hq.
  rewrite H in Hq. exact Hq.
Qed.

Lemma no_error_logged_while_healthy_witness :
  errors
    (trace_of
       (exec [Connack "client" "None" "{}" (mk_rc 0 "Success") "None";
              Iterate; Iterate]
             (typer_run default_options)))
  = [].
Proof.
  assert (H : exec [Connack "client" "None" "{}" (mk_rc 0 "Success") "None";
                    Iterate; Iterate]
                   (typer_run default_options)
              = Live (mk_self "homeassistant.local" 1883 "mqttuser"
                              "changeme" "homeassistant/sensor/foobar"
                              "home/nodes/sensor/foobar" 300 2)
                     true
                     (trace_of
                        (exec [Connack "client" "None" "{}"
                                       (mk_rc 0 "Success") "None";
                               Iterate; Iterate]
                              (typer_run default_options)))).
  { vm_compute. reflexivity. }
  exact (no_error_logged_while_healthy default_options _ _ _ H).
Defined.

(** ** Undisturbed operation *)

Section Healthy.



End Healthy.



(** ** After the network thread has ended *)

(** X12.  Once the network thread has ended, the program publishes no
    update and no ["online"] any more.  Whatever is scheduled, it either
    publishes nothing further, staying alive or leaving with exit code 1,
    or it publishes the one farewell of the signal handler and leaves with
    exit code 0. *)
Theorem only_farewell_without_network_thread :
  forall (self : MqttClient) (t : list event) (schedule : list action),
    (publishes (trace_of (exec schedule (Live self false t)))
     = publishes t
     /\ (exit_status (exec schedule (Live self false t)) = None \/
         exit_status (exec schedule (Live self false t)) = Some 1))
    \/ (publishes (trace_of (exec schedule (Live self false t)))
        = (publishes t
           ++ [mk_message (topic_prefix self ++ "/status") "goodbye"
                          0 true])%list
        /\ exit_status (exec schedule (Live self false t)) = Some 0).
Proof.
  intros self t schedule. induction schedule as [|a s IH].
  - left. split; [reflexivity | now left].
  - rewrite exec_cons.
    destruct a as [|client userdata flags rc properties| |].
    + rewrite step_iterate_alone, exec_dead. left. cbn [trace_of exit_status].
      rewrite publishes_app. cbn [publishes]. rewrite app_nil_r.
      split; [reflexivity | now right].
    + rewrite step_connack_no_thread. exact IH.
    + exact IH.
    + rewrite step_sigint, signal_handler_run, exec_dead. right.
      cbn [trace_of exit_status events].
      rewrite publishes_app. now split.
Qed.

(** ** What the behaviour depends on *)

Section Dependence.

(** After start-up, two processes whose objects agree on topic prefix,
    interval and counter add the same events and end alike. *)
Lemma step_agree (a : action) (s1 s2 : MqttClient) (net : bool)
    (t1 t2 : list event) :
  agree s1 s2 ->
  exists d : list event,
    (exists (s1' s2' : MqttClient) (net' : bool),
        step a (Live s1 net t1) = Live s1' net' (t1 ++ d) /\
        step a (Live s2 net t2) = Live s2' net' (t2 ++ d) /\
        agree s1' s2')
    \/ (exists code : Z,
          step a (Live s1 net t1) = Dead code (t1 ++ d) /\
          step a (Live s2 net t2) = Dead code (t2 ++ d)).
Proof.
  intros (Hp & Hi & Hc).
  destruct a as [|client userdata flags rc properties| |].
  - destruct net.
    + rewrite !step_iterate_live, <- Hp, <- Hi, <- Hc.
      eexists. left. do 3 eexists.
      split; [reflexivity | split; [reflexivity|]].
      repeat split; cbn; congruence.
    + rewrite !step_iterate_alone. eexists. right. eexists. now split.
  - destruct net.
    + destruct (Z.eq_dec (value rc) 0) as [E|E].
      * rewrite (proj1 (step_connack_ok s1 t1 _ _ _ _ _ E)),
                (proj1 (step_connack_ok s2 t2 _ _ _ _ _ E)),
                !(on_connect_success _ _ _ _ _ _ E), <- Hp.
        cbn [events]. eexists. left. do 3 eexists.
        split; [reflexivity | split; [reflexivity|]]. now repeat split.
      * rewrite (proj1 (step_connack_failed s1 t1 _ _ _ _ _ E)),
                (proj1 (step_connack_failed s2 t2 _ _ _ _ _ E)),
                !(on_connect_failure _ _ _ _ _ _ E).
        cbn [events]. eexists. left. do 3 eexists.
        split; [reflexivity | split; [reflexivity|]]. now repeat split.
    + rewrite !step_connack_no_thread. exists []. left.
      exists s1, s2, false. rewrite !app_nil_r. now repeat split.
  - exists []. left. exists s1, s2, false. cbn [step].
    rewrite !app_nil_r. now repeat split.
  - rewrite !step_sigint, !signal_handler_run, <- Hp. cbn [events].
    eexists. right. eexists. now split.
Qed.

Lemma exec_agree (schedule : list action) :
  forall (s1 s2 : MqttClient) (net : bool) (t1 t2 : list event),
    agree s1 s2 ->
    exists d : list event,
      trace_of (exec schedule (Live s1 net t1)) = (t1 ++ d)%list /\
      trace_of (exec schedule (Live s2 net t2)) = (t2 ++ d)%list /\
      exit_status (exec schedule (Live s1 net t1))
      = exit_status (exec schedule (Live s2 net t2)).
Proof.
  induction schedule as [|a s IH]; intros s1 s2 net t1 t2 H.
  - exists []. cbn. rewrite !app_nil_r. now repeat split.
  - rewrite !exec_cons.
    destruct (step_agree a s1 s2 net t1 t2 H)
      as [d1 [(s1' & s2' & net' & -> & -> & H') | (code & -> & ->)]].
    + destruct (IH s1' s2' net' (t1 ++ d1)%list (t2 ++ d1)%list H')
        as (d2 & Hx & Hy & Hz).
      exists (d1 ++ d2)%list. rewrite Hx, Hy, Hz, !app_assoc.
      now repeat split.
    + exists d1. rewrite !exec_dead. now repeat split.
Qed.

End Dependence.

(** X13.  The password reaches the client and nothing else.  A run with
    another [--mqtt-password] differs from the original in one event
    only, the call of [username_pw_set]: no log line, no printed text and
    no message contains or depends on the password, and the run ends the
    same way. *)
Theorem password_only_reaches_the_client :
  forall (o : options) (pw : string) (schedule : list action),
    opt_version o <> Some true ->
    exists before afterwards : list event,
      trace_of (exec schedule (typer_run o))
      = (before
         ++ UsernamePwSet (opt_mqtt_user o) (opt_mqtt_password o)
         :: afterwards)%list
      /\ trace_of (exec schedule (typer_run (with_mqtt_password o pw)))
         = (before ++ UsernamePwSet (opt_mqtt_user o) pw :: afterwards)%list
      /\ exit_status (exec schedule (typer_run (with_mqtt_password o pw)))
         = exit_status (exec schedule (typer_run o)).
Proof.
  intros o pw schedule Hv.
  destruct (typer_run_cases o) as [[Hv' _] | [_ ->]]; [contradiction|].
  destruct (typer_run_cases (with_mqtt_password o pw))
    as [[Hv' _] | [_ ->]]; [contradiction|].
  destruct (exec_agree schedule (final (construct o))
              (final (construct (with_mqtt_password o pw))) true
              (startup o) (startup (with_mqtt_password o pw)))
    as (d & -> & -> & ->); [now repeat split|].
  exists (firstn 3 (startup o)), (skipn 4 (startup o) ++ d)%list.
  repeat split.
Qed.

Lemma password_only_reaches_the_client_witness :
  exists before afterwards : list event,
    trace_of (exec [Iterate] (typer_run default_options))
    = (before ++ UsernamePwSet "mqttuser" "changeme" :: afterwards)%list
    /\ trace_of
         (exec [Iterate]
               (typer_run (with_mqtt_password default_options "hunter2")))
       = (before ++ UsernamePwSet "mqttuser" "hunter2" :: afterwards)%list
    /\ exit_status
         (exec [Iterate]
               (typer_run (with_mqtt_password default_options "hunter2")))
       = exit_status (exec [Iterate] (typer_run default_options)).
Proof.
  assert (Hv : opt_version default_options <> Some true) by discriminate.
  exact (password_only_reaches_the_client default_options "hunter2"
           [Iterate] Hv).
Defined.

(** X14.  [--debug] selects the logging level and nothing else: a run
    with the other setting of the flag differs in its first event only,
    the call of [setLevel], with [DEBUG] when the flag is set and [INFO]
    when it is not. *)
Theorem debug_only_sets_the_level :
  forall (o : options) (debug : bool) (schedule : list action),
    opt_version o <> Some true ->
    exists afterwards : list event,
      trace_of (exec schedule (typer_run o))
      = SetLevel (if opt_debug o then DEBUG else INFO) :: afterwards
      /\ trace_of (exec schedule (typer_run (with_debug o debug)))
         = SetLevel (if debug then DEBUG else INFO) :: afterwards
      /\ exit_status (exec schedule (typer_run (with_debug o debug)))
         = exit_status (exec schedule (typer_run o)).
Proof.
  intros o debug schedule Hv.
  destruct (typer_run_cases o) as [[Hv' _] | [_ ->]]; [contradiction|].
  destruct (typer_run_cases (with_debug o debug))
    as [[Hv' _] | [_ ->]]; [contradiction|].
  destruct (exec_agree schedule (final (construct o))
              (final (construct (with_debug o debug))) true
              (startup o) (startup (with_debug o debug)))
    as (d & -> & -> & ->); [now repeat split|].
  exists (skipn 1 (startup o) ++ d)%list.
  repeat split.
Qed.

Lemma debug_only_sets_the_level_witness :
  exists afterwards : list event,
    trace_of (exec [Iterate; Sigint] (typer_run default_options))
    = SetLevel INFO :: afterwards
    /\ trace_of
         (exec [Iterate; Sigint]
               (typer_run (with_debug default_options true)))
       = SetLevel DEBUG :: afterwards
    /\ exit_status
         (exec [Iterate; Sigint]
               (typer_run (with_debug default_options true)))
       = exit_status (exec [Iterate; Sigint] (typer_run default_options)).
Proof.
  assert (Hv : opt_version default_options <> Some true) by discriminate.
  exact (debug_only_sets_the_level default_options true [Iterate; Sigint]
           Hv).
Defined.

(** X15.  The discovery topic prefix is stored and logged once, in the
    settings banner of [run], and used nowhere else: a run with another
    [--discovery-topic-prefix] differs in that one log line only. *)
Theorem discovery_prefix_only_logged :
  forall (o : options) (d : string) (schedule : list action),
    opt_version o <> Some true ->
    exists before afterwards : list event,
      trace_of (exec schedule (typer_run o))
      = (before
         ++ Log INFO ("Discovery topic prefix:  "
                      ++ discovery_topic_prefix (final (construct o)))
         :: afterwards)%list
      /\ trace_of
           (exec schedule (typer_run (with_discovery_topic_prefix o d)))
         = (before
            ++ Log INFO
                 ("Discovery topic prefix:  "
                  ++ discovery_topic_prefix
                       (final (construct (with_discovery_topic_prefix o d))))
            :: afterwards)%list
      /\ exit_status
           (exec schedule (typer_run (with_discovery_topic_prefix o d)))
         = exit_status (exec schedule (typer_run o)).
Proof.
  intros o d schedule Hv.
  destruct (typer_run_cases o) as [[Hv' _] | [_ ->]]; [contradiction|].
  destruct (typer_run_cases (with_discovery_topic_prefix o d))
    as [[Hv' _] | [_ ->]]; [contradiction|].
  destruct (exec_agree schedule (final (construct o))
              (final (construct (with_discovery_topic_prefix o d))) true
              (startup o) (startup (with_discovery_topic_prefix o d)))
    as (e & -> & -> & ->); [now repeat split|].
  exists (firstn 8 (startup o)), (skipn 9 (startup o) ++ e)%list.
  repeat split.
Qed.

Lemma discovery_prefix_only_logged_witness :
  exists before afterwards : list event,
    trace_of (exec [Iterate] (typer_run default_options))
    = (before
       ++ Log INFO "Discovery topic prefix:  homeassistant/sensor/foobar"
       :: afterwards)%list
    /\ trace_of
         (exec [Iterate]
               (typer_run
                  (with_discovery_topic_prefix default_options "other/")))
       = (before ++ Log INFO "Discovery topic prefix:  other"
          :: afterwards)%list
    /\ exit_status
         (exec [Iterate]
               (typer_run
                  (with_discovery_topic_prefix default_options "other/")))
       = exit_status (exec [Iterate] (typer_run default_options)).
Proof.
  assert (Hv : opt_version default_options <> Some true) by discriminate.
  exact (discovery_prefix_only_logged default_options "other/" [Iterate]
           Hv).
Defined.

(** ** Writes to the agent object *)

(** X16.  After construction the agent object is written in one place
    only, the increment of the counter in [regular_update].  The connect
    callback (whatever the reason code), the disconnect callback, the two
    discovery stubs, the signal handler and the prologue of [run] leave
    every attribute as it was, and a pass of the loop changes the object
    only through [regular_update]. *)
Theorem only_regular_update_writes_the_object :
  forall (self : MqttClient) (client userdata flags : string)
         (rc : ReasonCode) (properties reason : string) (active_count : Z),
    final (on_connect client userdata flags rc properties self) = self
    /\ final (on_disconnect client userdata reason self) = self
    /\ final (publish_discovery self) = self
    /\ final (remove_discovery self) = self
    /\ final (signal_handler self) = self
    /\ final (run_prologue self) = self
    /\ final (regular_update self) = set_counter self (counter self + 1)
    /\ final (run_iteration active_count self)
       = (if active_count =? 1 then self
          else final (regular_update self)).
Proof.
  intros self client userdata flags rc properties reason active_count.
  repeat split.
  - destruct (Z.eq_dec (value rc) 0) as [E|E].
    + now rewrite (on_connect_success self client userdata flags rc
                     properties E).
    + now rewrite (on_connect_failure self client userdata flags rc
                     properties E).
  - destruct (Z.eqb_spec active_count 1) as [->|H].
    + reflexivity.
    + now rewrite (run_iteration_update self active_count H).
Qed.
